(** * hubble.gl, kepler-integration example: the load-data-modal override and
      the terrain recording demo.

    A shallow embedding of
    [examples/kepler-integration/src/factories/load-data-modal.js].  The file
    holds two scripts: the factory override ([Module LoadDataModal]) and the
    terrain demo application ([Module TerrainApp]).  Both manipulate plain
    JavaScript data (object literals, arrays, numbers, strings), which
    [Module JS] models. *)

From Stdlib Require Import List String Ascii Bool Floats.
Import ListNotations.

Set Warnings "-inexact-float,-register-all".

Local Open Scope string_scope.

(* ------------------------------------------------------------------------- *)
(** * JavaScript data *)

Module JS.

(** A JavaScript value.  Numbers are IEEE binary64, as in the language.  An
    object is its list of own properties in insertion order.  [VFun] is a
    function or component imported from another module, known by name only. *)
Inductive value : Type :=
| VUndefined
| VNull
| VBool (b : bool)
| VNum (x : float)
| VStr (s : string)
| VFun (name : string)
| VArr (elems : list value)
| VObj (fields : list (string * value)).

Definition obj := list (string * value).

(** The only exception these scripts can raise by themselves: reading a
    property of [undefined] or [null], or calling something that is not a
    function. *)
Inductive error : Type := TypeError.

Inductive result (A : Type) : Type :=
| Ok (a : A)
| Throw (e : error).
Arguments Ok {A} a.
Arguments Throw {A} e.

Definition bind {A B : Type} (m : result A) (k : A -> result B) : result B :=
  match m with
  | Ok a => k a
  | Throw e => Throw e
  end.

Notation "x <- m ;; k" := (bind m (fun x => k))
  (at level 61, m at next level, right associativity).

(** Own property lookup, by key. *)
Fixpoint lookup {A : Type} (k : string) (o : list (string * A)) : option A :=
  match o with
  | [] => None
  | (k', v) :: rest => if String.eqb k k' then Some v else lookup k rest
  end.

(** [o[k] = v] on an object under construction: an existing key keeps its
    place and takes the new value, a new key goes last. *)
Fixpoint set_field (k : string) (v : value) (o : obj) : obj :=
  match o with
  | [] => [(k, v)]
  | (k', v') :: rest =>
      if String.eqb k k' then (k', v) :: rest else (k', v') :: set_field k v rest
  end.

(** [Object.keys]. *)
Definition keys (o : obj) : list string := map fst o.

(** The own enumerable properties an object spread [{...v}] copies.  [null]
    and [undefined] spread to nothing.  Plain objects are the only other
    operands that reach the spread of [defaultProps] (see
    [LoadDataModalFacts.custom_ok_inv]). *)
Definition own_props (v : value) : obj :=
  match v with
  | VObj o => o
  | _ => []
  end.

(** [Object.assign(target, source)]: the properties of [source], in order. *)
Definition assign (target source : obj) : obj :=
  fold_left (fun acc kv => set_field (fst kv) (snd kv) acc) source target.

(** The property read [o.k] on a plain object: its own property, or
    [undefined]. *)
Definition get_own (o : obj) (k : string) : value :=
  match lookup k o with
  | Some x => x
  | None => VUndefined
  end.

(** The property read [v.k] on any value.  Reading from [undefined] or [null]
    throws.  Primitives, arrays and imported functions carry none of the
    named properties these scripts read. *)
Definition get (v : value) (k : string) : result value :=
  match v with
  | VUndefined | VNull => Throw TypeError
  | VObj o => Ok (get_own o k)
  | _ => Ok VUndefined
  end.

(** [v === s] for a string literal [s]. *)
Definition strict_eq_str (v : value) (s : string) : bool :=
  match v with
  | VStr s' => String.eqb s' s
  | _ => false
  end.

(** [Array.prototype.find]: the first element the callback accepts, or
    [undefined]; an exception of the callback propagates. *)
Fixpoint find_first (p : value -> result bool) (l : list value) : result value :=
  match l with
  | [] => Ok VUndefined
  | x :: rest => b <- p x ;; if b then Ok x else find_first p rest
  end.

(** The method call [v.find(p)].  Only arrays have the method. *)
Definition array_find (p : value -> result bool) (v : value) : result value :=
  match v with
  | VArr l => find_first p l
  | _ => Throw TypeError
  end.

(** Interpolation [`${t}`] of an environment variable, which is a string when
    set and [undefined] when not. *)
Definition interpolate (t : option string) : string :=
  match t with
  | Some s => s
  | None => "undefined"
  end.

Definition env_value (t : option string) : value :=
  match t with
  | Some s => VStr s
  | None => VUndefined
  end.

(** [v == null]: the two values a property read throws on. *)
Definition nullish (v : value) : bool :=
  match v with
  | VUndefined | VNull => true
  | _ => false
  end.

End JS.

(* ------------------------------------------------------------------------- *)
(** * The factory override (first script) *)

Module LoadDataModal.
Import JS.

(** A React component, as far as this script looks at one: its
    [defaultProps] ([undefined] when the component declares none). *)
Record Component : Type := {
  displayName : string;
  defaultProps : value
}.

(** A kepler.gl component factory: a function of the resolved dependencies,
    carrying the list [deps] of the factories it depends on. *)
Record Factory (Instance FactoryRef R : Type) : Type := {
  call : list Instance -> R;
  deps : list FactoryRef
}.
Arguments call {Instance FactoryRef R} f args.
Arguments deps {Instance FactoryRef R} f.

(** What [withState(lenses, mapStateToProps, actions)(Component)] is given.
    [withState] belongs to kepler.gl; the connected component is represented
    by its four ingredients. *)
Record Connected : Type := {
  lenses : list value;
  mapStateToProps : value -> result value;
  actions : obj;
  wrapped : Component
}.

Definition withState (l : list value) (m : value -> result value) (a : obj)
  (c : Component) : Connected :=
  {| lenses := l; mapStateToProps := m; actions := a; wrapped := c |}.

Section Override.

(** The imports of the script. *)
Variables Instance FactoryRef : Type.
Variable LoadDataModalFactory : Factory Instance FactoryRef Component.
Variable LOADING_METHODS : obj.

Definition SampleMapGallery : value := VFun "SampleMapGallery".
Definition SampleMapsTab : value := VFun "SampleMapsTab".
Definition loadSample : value := VFun "loadSample".
Definition loadSampleConfigurations : value := VFun "loadSampleConfigurations".

Definition additionalMethods : obj :=
  [ ("sample",
     VObj [ ("id", get_own LOADING_METHODS "sample");
            ("label", VStr "Sample Maps");
            ("elementType", SampleMapGallery);
            ("tabElementType", SampleMapsTab) ]) ].

(** [lm => lm.id === 'upload'] *)
Definition is_upload (lm : value) : result bool :=
  id <- get lm "id" ;;
  Ok (strict_eq_str id "upload").

(** [state => ({...state.demo.app, ...state.demo.keplerGl.map.uiState})] *)
Definition bound_state (state : value) : result value :=
  demo <- get state "demo" ;;
  app <- get demo "app" ;;
  demo' <- get state "demo" ;;
  keplerGl <- get demo' "keplerGl" ;;
  map <- get keplerGl "map" ;;
  uiState <- get map "uiState" ;;
  Ok (VObj (assign (own_props app) (own_props uiState))).

(** The body of [CustomLoadDataModalFactory = (...deps) => ...].  The
    assignment to [LoadDataModal.defaultProps] is the record update. *)
Definition CustomLoadDataModalFactory_body (args : list Instance) : result Connected :=
  let LoadDataModal := call LoadDataModalFactory args in
  defaultLoadingMethods <- get (defaultProps LoadDataModal) "loadingMethods" ;;
  upload <- array_find is_upload defaultLoadingMethods ;;
  let LoadDataModal' :=
    {| displayName := displayName LoadDataModal;
       defaultProps :=
         VObj (set_field "loadingMethods"
                 (VArr [upload; get_own additionalMethods "sample"])
                 (own_props (defaultProps LoadDataModal))) |} in
  Ok (withState []
        bound_state
        [ ("onLoadSample", loadSample);
          ("loadSampleConfigurations", loadSampleConfigurations) ]
        LoadDataModal').

(** [CustomLoadDataModalFactory.deps = LoadDataModalFactory.deps;] *)
Definition CustomLoadDataModalFactory : Factory Instance FactoryRef (result Connected) :=
  {| call := CustomLoadDataModalFactory_body;
     deps := deps LoadDataModalFactory |}.

Definition replaceLoadDataModal :
  Factory Instance FactoryRef Component * Factory Instance FactoryRef (result Connected) :=
  (LoadDataModalFactory, CustomLoadDataModalFactory).

(** The loading methods of the component a successful call produces. *)
Definition produced_loadingMethods (args : list Instance) : result value :=
  c <- call CustomLoadDataModalFactory args ;;
  get (defaultProps (wrapped c)) "loadingMethods".

End Override.

Arguments CustomLoadDataModalFactory_body {Instance FactoryRef} _ _ _.
Arguments CustomLoadDataModalFactory {Instance FactoryRef} _ _.
Arguments replaceLoadDataModal {Instance FactoryRef} _ _.
Arguments produced_loadingMethods {Instance FactoryRef} _ _ _.

End LoadDataModal.

(* ------------------------------------------------------------------------- *)
(** * The terrain demo application (second script) *)

Module TerrainApp.
Import JS.
Local Open Scope float_scope.

(** An object built by [new cls(props)] for a class imported from deck.gl or
    hubble.gl: the class name and the configuration it was given. *)
Inductive instance : Type :=
| New (cls : string) (props : value).

Definition cls_of (i : instance) : string := match i with New c _ => c end.
Definition props_of (i : instance) : value := match i with New _ p => p end.

Definition INITIAL_VIEW_STATE : value :=
  VObj [ ("latitude", VNum 46.24);
         ("longitude", VNum (-122.18));
         ("zoom", VNum 11.5);
         ("bearing", VNum 140);
         ("pitch", VNum 60) ].

Definition ELEVATION_DECODER : value :=
  VObj [ ("rScaler", VNum 6553.6);
         ("gScaler", VNum 25.6);
         ("bScaler", VNum 0.1);
         ("offset", VNum (-10000)) ].

(** The imported easing functions. *)
Definition easeInOut : value := VFun "easing.easeInOut".
Definition linear : value := VFun "easing.linear".
Definition hold : value := VFun "hold".

Definition getPrerecordedCameraKeyframes (_ : unit) : instance :=
  New "CameraKeyframes"
    (VObj
       [ ("timings", VArr [VNum 0; VNum 6000; VNum 7000; VNum 8000; VNum 14000]);
         ("keyframes",
          VArr
            [ VObj [ ("latitude", VNum 46.24);
                     ("longitude", VNum (-122.18));
                     ("zoom", VNum 11.5);
                     ("bearing", VNum 140);
                     ("pitch", VNum 60) ];
              VObj [ ("latitude", VNum 46.24);
                     ("longitude", VNum (-122.18));
                     ("zoom", VNum 11.5);
                     ("bearing", VNum 0);
                     ("pitch", VNum 60) ];
              VObj [ ("latitude", VNum 36.1101);
                     ("longitude", VNum (-112.1906));
                     ("zoom", VNum 12.5);
                     ("pitch", VNum 20);
                     ("bearing", VNum 15) ];
              VObj [ ("latitude", VNum 36.1101);
                     ("longitude", VNum (-112.1906));
                     ("zoom", VNum 12.5);
                     ("pitch", VNum 20);
                     ("bearing", VNum 15) ];
              VObj [ ("latitude", VNum 36.1101);
                     ("longitude", VNum (-112.1906));
                     ("zoom", VNum 12.5);
                     ("pitch", VNum 60);
                     ("bearing", VNum 180) ] ]);
         ("easings", VArr [easeInOut; hold; easeInOut; easeInOut]) ]).

Definition getKeyframes (_ : unit) : list (string * instance) :=
  [ ("terrain",
     New "LayerKeyframes"
       (VObj
          [ ("layerId", VStr "terrain");
            ("features", VArr [VStr "r"; VStr "g"; VStr "b"]);
            ("keyframes",
             VArr
               [ VObj [("r", VNum 255); ("g", VNum 255); ("b", VNum 255)];
                 VObj [("r", VNum 255); ("g", VNum 0); ("b", VNum 0)];
                 VObj [("r", VNum 255); ("g", VNum 255); ("b", VNum 0)];
                 VObj [("r", VNum 0); ("g", VNum 255); ("b", VNum 0)];
                 VObj [("r", VNum 0); ("g", VNum 255); ("b", VNum 255)];
                 VObj [("r", VNum 0); ("g", VNum 0); ("b", VNum 255)];
                 VObj [("r", VNum 255); ("g", VNum 0); ("b", VNum 255)];
                 VObj [("r", VNum 255); ("g", VNum 255); ("b", VNum 255)] ]);
            ("timings",
             VArr [ VNum 0; VNum 2000; VNum 4000; VNum 6000;
                    VNum 8000; VNum 10000; VNum 12000; VNum 14000 ]);
            ("easings",
             VArr [linear; linear; linear; linear; linear; linear; linear]) ])) ].

Definition encoderSettings : value :=
  VObj [ ("framerate", VNum 30);
         ("webm", VObj [("quality", VNum 0.8)]);
         ("jpeg", VObj [("quality", VNum 0.8)]);
         ("gif", VObj [("sampleInterval", VNum 1000)]) ].

(** ** Checks on a keyframe configuration *)

Fixpoint numbers (l : list value) : option (list float) :=
  match l with
  | [] => Some []
  | VNum x :: rest => option_map (cons x) (numbers rest)
  | _ => None
  end.

Fixpoint strictly_ascending (l : list float) : bool :=
  match l with
  | a :: ((b :: _) as rest) => PrimFloat.ltb a b && strictly_ascending rest
  | _ => true
  end.

(** The same as a proposition: each element is strictly below the next. *)
Definition ascending (t : list float) : Prop :=
  forall (n : nat) (a b : float),
    nth_error t n = Some a -> nth_error t (S n) = Some b -> PrimFloat.ltb a b = true.

(** A plain object all of whose values are numbers, with exactly the keys [ks]
    (in any order). *)
Definition number_record (ks : list string) (v : value) : bool :=
  match v with
  | VObj o =>
      Nat.eqb (List.length o) (List.length ks)
      && forallb (fun k => match lookup k o with Some (VNum _) => true | _ => false end) ks
  | _ => false
  end.

(** The three lists of a keyframe configuration, when it has them. *)
Definition keyframe_lists (i : instance) : option (list value * list value * list value) :=
  match props_of i with
  | VObj o =>
      match lookup "timings" o, lookup "keyframes" o, lookup "easings" o with
      | Some (VArr ts), Some (VArr ks), Some (VArr es) => Some (ts, ks, es)
      | _, _, _ => None
      end
  | _ => None
  end.

(** Timings are numbers in strictly ascending order, there is one keyframe
    per timing and one easing per consecutive pair of keyframes. *)
Definition well_formed_keyframes (i : instance) : bool :=
  match keyframe_lists i with
  | Some (ts, ks, es) =>
      match numbers ts with
      | Some t => strictly_ascending t
      | None => false
      end
      && Nat.eqb (List.length ks) (List.length ts)
      && Nat.eqb (S (List.length es)) (List.length ts)
  | None => false
  end.

(** ** The module constants that depend on the environment, and [App] *)

Section Application.

(** [process.env]: a variable is a string when set, [undefined] when not. *)
Variable process_env : string -> option string.

(** A live keyframes object of a scene, and its method [getFrame()], which
    returns the frame interpolated at the scene's current time.  Both belong
    to the animation library. *)
Variable Keyframes : Type.
Variable getFrame : Keyframes -> value.

Definition MAPBOX_TOKEN : option string := process_env "MapboxAccessToken".

Definition TERRAIN_IMAGE : string :=
  "https://api.mapbox.com/v4/mapbox.terrain-rgb/{z}/{x}/{y}.png?access_token="
  ++ interpolate MAPBOX_TOKEN.

Definition SURFACE_IMAGE : string :=
  "https://api.mapbox.com/v4/mapbox.satellite/{z}/{x}/{y}@2x.png?access_token="
  ++ interpolate MAPBOX_TOKEN.

(** The top-level statements that read the environment, evaluated in
    order: what the module holds once it is loaded. *)
Record Constants : Type := {
  c_MAPBOX_TOKEN : value;
  c_TERRAIN_IMAGE : string;
  c_SURFACE_IMAGE : string
}.

Definition module_init : result Constants :=
  token <- Ok (env_value MAPBOX_TOKEN) ;;
  terrain <- Ok TERRAIN_IMAGE ;;
  surface <- Ok SURFACE_IMAGE ;;
  Ok {| c_MAPBOX_TOKEN := token;
        c_TERRAIN_IMAGE := terrain;
        c_SURFACE_IMAGE := surface |}.

(** The [useState] cells of [App]. *)
Record State : Type := {
  ready : bool;
  busy : bool;
  viewState : value;
  viewStateA : value;
  viewStateB : value;
  duration : value;
  rainbow : bool;
  cameraMode : string
}.

Definition initial_state : State :=
  {| ready := false;
     busy := false;
     viewState := INITIAL_VIEW_STATE;
     viewStateA := INITIAL_VIEW_STATE;
     viewStateB :=
       VObj [ ("latitude", VNum 36.1101);
              ("longitude", VNum (-112.1906));
              ("zoom", VNum 12.5);
              ("pitch", VNum 20);
              ("bearing", VNum 15) ];
     duration := VNum 15000;
     rainbow := false;
     cameraMode := "prerecorded" |}.

(** The state setters the rendered elements call. *)
Inductive event : Type :=
| SetReady (b : bool)
| SetBusy (b : bool)
| ViewStateChange (vs : value)
| ToggleRainbow
| SelectCameraMode (v : string)
| SetFlyToStart
| SetFlyToEnd.

Definition update (st : State) (e : event) : State :=
  match e with
  | SetReady b =>
      {| ready := b; busy := busy st; viewState := viewState st;
         viewStateA := viewStateA st; viewStateB := viewStateB st;
         duration := duration st; rainbow := rainbow st;
         cameraMode := cameraMode st |}
  | SetBusy b =>
      {| ready := ready st; busy := b; viewState := viewState st;
         viewStateA := viewStateA st; viewStateB := viewStateB st;
         duration := duration st; rainbow := rainbow st;
         cameraMode := cameraMode st |}
  | ViewStateChange vs =>
      {| ready := ready st; busy := busy st; viewState := vs;
         viewStateA := viewStateA st; viewStateB := viewStateB st;
         duration := duration st; rainbow := rainbow st;
         cameraMode := cameraMode st |}
  | ToggleRainbow =>
      {| ready := ready st; busy := busy st; viewState := viewState st;
         viewStateA := viewStateA st; viewStateB := viewStateB st;
         duration := duration st; rainbow := negb (rainbow st);
         cameraMode := cameraMode st |}
  | SelectCameraMode v =>
      {| ready := ready st; busy := busy st; viewState := viewState st;
         viewStateA := viewStateA st; viewStateB := viewStateB st;
         duration := duration st; rainbow := rainbow st;
         cameraMode := v |}
  | SetFlyToStart =>
      {| ready := ready st; busy := busy st; viewState := viewState st;
         viewStateA := viewState st; viewStateB := viewStateB st;
         duration := duration st; rainbow := rainbow st;
         cameraMode := cameraMode st |}
  | SetFlyToEnd =>
      {| ready := ready st; busy := busy st; viewState := viewState st;
         viewStateA := viewStateA st; viewStateB := viewState st;
         duration := duration st; rainbow := rainbow st;
         cameraMode := cameraMode st |}
  end.

Definition getFlyToCameraKeyframes (st : State) (_ : unit) : instance :=
  New "FlyToKeyframes"
    (VObj [ ("start", viewStateA st);
            ("end", viewStateB st);
            ("width", VNum 640);
            ("height", VNum 480);
            ("curve", VNum 1) ]).

(** The configuration [getDeckScene] gives to [new DeckScene]. *)
Record DeckSceneProps : Type := {
  animationLoop : value;
  lengthMs : value;
  width : value;
  height : value;
  initialKeyframes : list (string * instance)
}.

Definition getDeckScene (st : State) (loop : value) : DeckSceneProps :=
  {| animationLoop := loop;
     lengthMs := duration st;
     width := VNum 640;
     height := VNum 480;
     initialKeyframes := getKeyframes tt |}.

(** The scene handed to [getLayers]: its named keyframes objects. *)
Record Scene : Type := {
  keyframes : list (string * Keyframes)
}.

Definition getLayers (st : State) (scene : Scene) : result (list instance) :=
  kf <- match lookup "terrain" (keyframes scene) with
        | Some kf => Ok kf
        | None => Throw TypeError
        end ;;
  let terrain := getFrame kf in
  r <- get terrain "r" ;;
  g <- get terrain "g" ;;
  b <- get terrain "b" ;;
  Ok [ New "TerrainLayer"
         (VObj [ ("id", VStr "terrain");
                 ("minZoom", VNum 0);
                 ("maxZoom", VNum 23);
                 ("strategy", VStr "no-overlap");
                 ("elevationDecoder", ELEVATION_DECODER);
                 ("elevationData", VStr TERRAIN_IMAGE);
                 ("texture", if rainbow st then VNull else VStr SURFACE_IMAGE);
                 ("wireframe", VBool false);
                 ("color", VArr [r; g; b]) ]) ].

Definition getCameraKeyframes (st : State) : unit -> instance :=
  if String.eqb (cameraMode st) "prerecorded"
  then getPrerecordedCameraKeyframes
  else getFlyToCameraKeyframes st.

(** The props of the [BasicControls] element ([adapter] and [setBusy] are
    handles on the library and on [update]). *)
Record BasicControlsProps : Type := {
  p_busy : bool;
  p_encoderSettings : value;
  p_getCameraKeyframes : unit -> instance;
  p_getKeyframes : unit -> list (string * instance)
}.

(** What [App] renders, as far as it depends on the state. *)
Record View : Type := {
  deck_initialViewState : value;
  deck_viewState : value;
  deck_getLayers : Scene -> result (list instance);
  controls : option BasicControlsProps;
  rainbow_checked : bool;
  select_value : string;
  flyTo_buttons_disabled : bool
}.

Definition App (st : State) : View :=
  {| deck_initialViewState := INITIAL_VIEW_STATE;
     deck_viewState := viewState st;
     deck_getLayers := getLayers st;
     controls :=
       if ready st
       then Some {| p_busy := busy st;
                    p_encoderSettings := encoderSettings;
                    p_getCameraKeyframes := getCameraKeyframes st;
                    p_getKeyframes := getKeyframes |}
       else None;
     rainbow_checked := rainbow st;
     select_value := cameraMode st;
     flyTo_buttons_disabled := String.eqb (cameraMode st) "prerecorded" |}.

End Application.

Arguments keyframes {Keyframes} s.
Arguments getLayers process_env {Keyframes} getFrame st scene.
Arguments deck_getLayers {Keyframes} v.
Arguments controls {Keyframes} v.
Arguments App process_env {Keyframes} getFrame st.
Arguments flyTo_buttons_disabled {Keyframes} v.
Arguments select_value {Keyframes} v.
Arguments rainbow_checked {Keyframes} v.

(** The state after the setters of a sequence of events have run, oldest
    first. *)
Definition run (st : State) (es : list event) : State :=
  fold_left update es st.


End TerrainApp.

(* ------------------------------------------------------------------------- *)
(** * Concrete inputs *)

Module Fixtures.
Import JS LoadDataModal TerrainApp.
Local Open Scope float_scope.

(** A stock modal factory in the style of kepler.gl: an upload tab and a
    storage tab by default. *)
Definition upload_method : value :=
  VObj [ ("id", VStr "upload");
         ("label", VStr "modal.loadData.upload");
         ("elementType", VFun "FileUpload") ].

Definition storage_method : value :=
  VObj [ ("id", VStr "storage");
         ("label", VStr "modal.loadData.storage");
         ("elementType", VFun "LoadStorageMap") ].

Definition stock_defaultProps : value :=
  VObj [ ("onFileUpload", VFun "noop");
         ("fileLoading", VBool false);
         ("loadingMethods", VArr [upload_method; storage_method]) ].

Definition stock_factory : Factory unit string Component :=
  {| call := fun _ => {| displayName := "LoadDataModal";
                         defaultProps := stock_defaultProps |};
     deps := ["ModalTabsFactory"; "LoadingDialogFactory"] |}.

Definition stock_LOADING_METHODS : obj :=
  [ ("remote", VStr "remote"); ("sample", VStr "sample") ].

(** An environment with no variable set, and one with a token. *)
Definition empty_env : string -> option string := fun _ => None.

Definition token_env : string -> option string :=
  fun k => if String.eqb k "MapboxAccessToken" then Some "pk.test" else None.

(** A scene whose terrain keyframes object is at an orange frame. *)
Definition orange_scene : Scene unit := {| keyframes := [("terrain", tt)] |}.

Definition orange_frame (_ : unit) : value :=
  VObj [("r", VNum 255); ("g", VNum 127.5); ("b", VNum 0)].

Definition rainbow_state : State :=
  update (update initial_state ToggleRainbow) (SetReady true).

(** A factory whose component declares no [defaultProps]. *)
Definition bare_factory : Factory unit string Component :=
  {| call := fun _ => {| displayName := "Bare"; defaultProps := VUndefined |};
     deps := [] |}.

(** A factory with a storage tab only. *)
Definition storage_only_factory : Factory unit string Component :=
  {| call := fun _ => {| displayName := "LoadDataModal";
                         defaultProps :=
                           VObj [("loadingMethods", VArr [storage_method])] |};
     deps := [] |}.

(** Default loading methods with a hole after the upload tab, and with a
    hole before it. *)
Definition hole_after_factory : Factory unit string Component :=
  {| call := fun _ => {| displayName := "LoadDataModal";
                         defaultProps :=
                           VObj [("loadingMethods",
                                  VArr [storage_method; upload_method; VUndefined])] |};
     deps := [] |}.

Definition hole_before_factory : Factory unit string Component :=
  {| call := fun _ => {| displayName := "LoadDataModal";
                         defaultProps :=
                           VObj [("loadingMethods",
                                  VArr [storage_method; VNull; upload_method])] |};
     deps := [] |}.

(** A factory that hands back the component another one already produced. *)
Definition returning (c : Component) : Factory unit string Component :=
  {| call := fun _ => c; deps := [] |}.



(** A scene without terrain keyframes. *)
Definition empty_scene : Scene unit := {| keyframes := [] |}.

End Fixtures.

(* ------------------------------------------------------------------------- *)
(** * Facts about JavaScript objects and arrays *)

Module JSFacts.
Import JS.

Lemma lookup_set_field_same (k : string) (v : value) (o : obj) :
  lookup k (set_field k v o) = Some v.
Proof.
  induction o as [| [k' v'] rest IH]; simpl.
  - now rewrite String.eqb_refl.
  - destruct (String.eqb k k') eqn:E; simpl; rewrite E; auto.
Qed.

Lemma lookup_set_field_other (k k' : string) (v : value) (o : obj) :
  k <> k' -> lookup k (set_field k' v o) = lookup k o.
Proof.
  intros Hne. induction o as [| [k0 v0] rest IH]; simpl.
  - destruct (String.eqb_spec k k'); [contradiction | reflexivity].
  - destruct (String.eqb_spec k' k0) as [-> | Hk0]; simpl.
    + destruct (String.eqb_spec k k0); [contradiction | reflexivity].
    + destruct (String.eqb k k0); auto.
Qed.

(** A spread followed by one more property keeps the keys of the operand and
    adds the new key when it was not there. *)
Lemma keys_set_field (k : string) (v : value) (o : obj) :
  keys (set_field k v o) = if existsb (String.eqb k) (keys o) then keys o else (keys o ++ [k])%list.
Proof.
  unfold keys. induction o as [| [k' v'] rest IH]; simpl; [reflexivity |].
  destruct (String.eqb k k') eqn:E; simpl; [reflexivity |].
  rewrite IH. now destruct (existsb (String.eqb k) (map fst rest)).
Qed.

(** What [find] returns is [undefined] or the first element the callback
    accepts: it is in the array, and the callback rejects everything before. *)
Lemma find_first_spec (p : value -> result bool) (l : list value) (r : value) :
  find_first p l = Ok r ->
  (r = VUndefined /\ Forall (fun x => p x = Ok false) l)
  \/ (exists before after,
        l = (before ++ r :: after)%list /\ p r = Ok true
        /\ Forall (fun x => p x = Ok false) before).
Proof.
  revert r. induction l as [| x rest IH]; simpl; intros r H.
  - left. inversion H. auto.
  - destruct (p x) as [[|] |] eqn:E; simpl in H.
    + inversion H; subst. right. exists [], rest. auto.
    + destruct (IH r H) as [[-> Hall] | (before & after & -> & Hp & Hall)].
      * left. auto.
      * right. exists (x :: before), after. auto.
    + discriminate.
Qed.

(** [find] throws only when the callback does. *)
Lemma find_first_total (p : value -> result bool) (l : list value) :
  Forall (fun x => exists b, p x = Ok b) l ->
  exists r, find_first p l = Ok r.
Proof.
  induction 1 as [| x rest [b Hb] _ IH]; simpl.
  - eauto.
  - rewrite Hb. simpl. destruct b; eauto.
Qed.

End JSFacts.

(* ------------------------------------------------------------------------- *)
(** * The factory override: properties *)

Module LoadDataModalFacts.
Import JS JSFacts LoadDataModal.

Section OverrideFacts.

Variables Instance FactoryRef : Type.
Variable LoadDataModalFactory : Factory Instance FactoryRef Component.
Variable LOADING_METHODS : obj.

Local Abbreviation Custom := (CustomLoadDataModalFactory LoadDataModalFactory LOADING_METHODS).
Local Abbreviation sample := (get_own (additionalMethods LOADING_METHODS) "sample").

(** A call of the custom factory that returns has found [defaultProps] a
    plain object whose [loadingMethods] is an array, and returns the
    component with exactly one property rewritten. *)
Lemma custom_ok_inv (args : list Instance) (w : Connected) :
  call Custom args = Ok w ->
  exists o l upload,
    defaultProps (call LoadDataModalFactory args) = VObj o
    /\ get_own o "loadingMethods" = VArr l
    /\ find_first is_upload l = Ok upload
    /\ defaultProps (wrapped w)
       = VObj (set_field "loadingMethods" (VArr [upload; sample]) o).
Proof.
  cbn [call Custom CustomLoadDataModalFactory].
  unfold CustomLoadDataModalFactory_body.
  destruct (defaultProps (call LoadDataModalFactory args)) as [| | b | x | s | f | l | o];
    cbn; try discriminate.
  destruct (get_own o "loadingMethods") as [| | b | x | s | f | l | o'] eqn:Hlm;
    cbn; try discriminate.
  destruct (find_first is_upload l) as [upload | e] eqn:Hfind; cbn; [| discriminate].
  intros H. inversion H; subst; clear H. cbn.
  exists o, l, upload. auto.
Qed.

(** Conversely the call returns whenever the default loading methods are an
    array of objects. *)
Lemma custom_succeeds (args : list Instance) (o : obj) (l : list value) :
  defaultProps (call LoadDataModalFactory args) = VObj o ->
  get_own o "loadingMethods" = VArr l ->
  Forall (fun lm => exists f, lm = VObj f) l ->
  exists w, call Custom args = Ok w.
Proof.
  intros Hdp Hlm Hall.
  destruct (find_first_total is_upload l) as [upload Hfind].
  { eapply Forall_impl; [| exact Hall]. intros lm [f ->]. cbn. eauto. }
  cbn [call Custom CustomLoadDataModalFactory].
  unfold CustomLoadDataModalFactory_body.
  rewrite Hdp. cbn. rewrite Hlm. cbn. rewrite Hfind. cbn. eauto.
Qed.

Lemma lookup_some_in_keys (k : string) (o : obj) (v : value) :
  lookup k o = Some v -> existsb (String.eqb k) (keys o) = true.
Proof.
  induction o as [| [k' v'] rest IH]; simpl; [discriminate |].
  destruct (String.eqb k k'); auto.
Qed.

(** C2, as the code has it: the produced [loadingMethods] is the
    two-element list [[u, sample]], where [u] is what [find] returns on the
    factory default list: the first default method whose [id] is
    ['upload'], or [undefined] when no default method has that [id].  No
    other default method is kept. *)
Theorem custom_loadingMethods_keep_upload_add_sample
  (args : list Instance) (w : Connected) :
  call Custom args = Ok w ->
  exists defaults u,
    get (defaultProps (call LoadDataModalFactory args)) "loadingMethods"
    = Ok (VArr defaults)
    /\ get (defaultProps (wrapped w)) "loadingMethods" = Ok (VArr [u; sample])
    /\ ((u = VUndefined /\ Forall (fun lm => is_upload lm = Ok false) defaults)
        \/ (exists before after,
              defaults = (before ++ u :: after)%list
              /\ is_upload u = Ok true
              /\ Forall (fun lm => is_upload lm = Ok false) before)).
Proof.
  intros H. destruct (custom_ok_inv args w H) as (o & l & u & Hdp & Hlm & Hfind & Hnew).
  exists l, u. rewrite Hdp, Hnew. cbn. rewrite Hlm.
  unfold get_own at 1. rewrite lookup_set_field_same.
  repeat split; auto using find_first_spec.
Qed.

(** C3: the component produced by the custom factory lists the sample-maps
    loading method (id [LOADING_METHODS.sample], label ['Sample Maps'])
    among its default [loadingMethods]. *)
Theorem custom_loadingMethods_has_sample (args : list Instance) (w : Connected) :
  call Custom args = Ok w ->
  exists l,
    get (defaultProps (wrapped w)) "loadingMethods" = Ok (VArr l)
    /\ In sample l
    /\ get sample "id" = Ok (get_own LOADING_METHODS "sample")
    /\ get sample "label" = Ok (VStr "Sample Maps").
Proof.
  intros H. destruct (custom_ok_inv args w H) as (o & l & u & Hdp & Hlm & Hfind & Hnew).
  exists [u; sample]. rewrite Hnew. cbn.
  unfold get_own at 1. rewrite lookup_set_field_same.
  repeat split; cbn; auto.
Qed.

(** C4: the override rewrites [loadingMethods] only: every other default
    prop of the produced component has the value the original factory set,
    and no key is added or removed. *)
Theorem custom_defaultProps_frame (args : list Instance) (w : Connected) (k : string) :
  call Custom args = Ok w ->
  k <> "loadingMethods" ->
  get (defaultProps (wrapped w)) k = get (defaultProps (call LoadDataModalFactory args)) k
  /\ exists o o',
       defaultProps (call LoadDataModalFactory args) = VObj o
       /\ defaultProps (wrapped w) = VObj o'
       /\ keys o' = keys o.
Proof.
  intros H Hk. destruct (custom_ok_inv args w H) as (o & l & u & Hdp & Hlm & Hfind & Hnew).
  rewrite Hdp, Hnew. split.
  - cbn. unfold get_own. now rewrite lookup_set_field_other.
  - exists o, (set_field "loadingMethods" (VArr [u; sample]) o).
    repeat split. rewrite keys_set_field.
    unfold get_own in Hlm.
    destruct (lookup "loadingMethods" o) as [v |] eqn:E; [| discriminate].
    now rewrite (lookup_some_in_keys _ _ _ E).
Qed.

(** C6: the sample loading-method descriptor has the four fields [id],
    [label], [elementType] and [tabElementType] and no others, and it is
    this descriptor that the produced modal receives. *)
Theorem sample_descriptor_fields :
  exists d,
    sample = VObj d
    /\ keys d = ["id"; "label"; "elementType"; "tabElementType"]
    /\ forall args w,
         call Custom args = Ok w ->
         exists u, get (defaultProps (wrapped w)) "loadingMethods"
                   = Ok (VArr [u; VObj d]).
Proof.
  eexists. split; [reflexivity |]. split; [reflexivity |].
  intros args w H.
  destruct (custom_ok_inv args w H) as (o & l & u & Hdp & Hlm & Hfind & Hnew).
  exists u. rewrite Hnew. cbn. unfold get_own at 1.
  now rewrite lookup_set_field_same.
Qed.

(** C8: the custom factory carries the dependency list of the factory it
    replaces, so resolving its dependencies gives the same instances. *)
Theorem custom_deps_preserved :
  deps Custom = deps LoadDataModalFactory
  /\ replaceLoadDataModal LoadDataModalFactory LOADING_METHODS
     = (LoadDataModalFactory, Custom)
  /\ forall resolve : FactoryRef -> Instance,
       map resolve (deps Custom) = map resolve (deps LoadDataModalFactory).
Proof.
  repeat split.
Qed.

End OverrideFacts.

Import Fixtures.

Lemma custom_loadingMethods_keep_upload_add_sample_witness :
  exists w,
    call (CustomLoadDataModalFactory stock_factory stock_LOADING_METHODS) [tt] = Ok w
    /\ exists defaults u,
         get (defaultProps (call stock_factory [tt])) "loadingMethods" = Ok (VArr defaults)
         /\ get (defaultProps (wrapped w)) "loadingMethods"
            = Ok (VArr [u; get_own (additionalMethods stock_LOADING_METHODS) "sample"])
         /\ ((u = VUndefined /\ Forall (fun lm => is_upload lm = Ok false) defaults)
             \/ (exists before after,
                   defaults = (before ++ u :: after)%list
                   /\ is_upload u = Ok true
                   /\ Forall (fun lm => is_upload lm = Ok false) before)).
Proof.
  eexists. split; [reflexivity |].
  apply (custom_loadingMethods_keep_upload_add_sample
           unit string stock_factory stock_LOADING_METHODS [tt]).
  reflexivity.
Defined.

Lemma custom_loadingMethods_has_sample_witness :
  exists w,
    call (CustomLoadDataModalFactory stock_factory stock_LOADING_METHODS) [tt] = Ok w
    /\ exists l,
         get (defaultProps (wrapped w)) "loadingMethods" = Ok (VArr l)
         /\ In (get_own (additionalMethods stock_LOADING_METHODS) "sample") l
         /\ get (get_own (additionalMethods stock_LOADING_METHODS) "sample") "id"
            = Ok (get_own stock_LOADING_METHODS "sample")
         /\ get (get_own (additionalMethods stock_LOADING_METHODS) "sample") "label"
            = Ok (VStr "Sample Maps").
Proof.
  eexists. split; [reflexivity |].
  apply (custom_loadingMethods_has_sample
           unit string stock_factory stock_LOADING_METHODS [tt]).
  reflexivity.
Defined.

Lemma custom_defaultProps_frame_witness :
  exists w,
    call (CustomLoadDataModalFactory stock_factory stock_LOADING_METHODS) [tt] = Ok w
    /\ "fileLoading" <> "loadingMethods"
    /\ get (defaultProps (wrapped w)) "fileLoading"
       = get (defaultProps (call stock_factory [tt])) "fileLoading"
    /\ exists o o',
         defaultProps (call stock_factory [tt]) = VObj o
         /\ defaultProps (wrapped w) = VObj o'
         /\ keys o' = keys o.
Proof.
  eexists. split; [reflexivity |].
  assert (Hk : "fileLoading" <> "loadingMethods") by discriminate.
  split; [exact Hk |].
  apply (custom_defaultProps_frame
           unit string stock_factory stock_LOADING_METHODS [tt] _ "fileLoading");
    [reflexivity | exact Hk].
Defined.

(** C2 as stated fails on the stock factory: its default storage method is
    not among the loading methods of the produced component. *)
Lemma custom_drops_storage_method :
  get (defaultProps (call stock_factory [tt])) "loadingMethods"
  = Ok (VArr [upload_method; storage_method])
  /\ produced_loadingMethods stock_factory stock_LOADING_METHODS [tt]
     = Ok (VArr [upload_method; get_own (additionalMethods stock_LOADING_METHODS) "sample"])
  /\ ~ In storage_method
         [upload_method; get_own (additionalMethods stock_LOADING_METHODS) "sample"].
Proof.
  split; [reflexivity |]. split; [reflexivity |].
  intros [H | [H | []]]; discriminate H.
Qed.

End LoadDataModalFacts.

(* ------------------------------------------------------------------------- *)
(** * The terrain demo: properties *)

Module TerrainAppFacts.
Import JS JSFacts TerrainApp.
Local Open Scope float_scope.

Lemma strictly_ascending_spec (t : list float) :
  strictly_ascending t = true -> ascending t.
Proof.
  induction t as [| a [| b rest] IH]; intros H n x y Hx Hy.
  - destruct n; discriminate.
  - destruct n as [| [| n]]; discriminate.
  - cbn [strictly_ascending] in H. apply andb_prop in H as [Hab Hrest].
    destruct n as [| n].
    + cbn in Hx, Hy. inversion Hx; inversion Hy; subst. exact Hab.
    + apply (IH Hrest n x y); assumption.
Qed.

Lemma numbers_length (l : list value) (t : list float) :
  numbers l = Some t -> l = map VNum t.
Proof.
  revert t. induction l as [| v rest IH]; intros t H.
  - inversion H. reflexivity.
  - destruct v; try discriminate. cbn in H.
    destruct (numbers rest) as [t' |]; [| discriminate].
    inversion H; subst. cbn. now rewrite (IH t').
Qed.

(** What the executable check establishes. *)
Lemma well_formed_keyframes_spec (i : instance) :
  well_formed_keyframes i = true ->
  exists t ks es,
    keyframe_lists i = Some (map VNum t, ks, es)
    /\ ascending t
    /\ List.length ks = List.length t
    /\ S (List.length es) = List.length t.
Proof.
  unfold well_formed_keyframes.
  destruct (keyframe_lists i) as [[[ts ks] es] |]; [| discriminate].
  destruct (numbers ts) as [t |] eqn:Hn; [| discriminate].
  intros H. apply andb_prop in H as [H Hes]. apply andb_prop in H as [Hasc Hks].
  apply PeanoNat.Nat.eqb_eq in Hes, Hks.
  pose proof (numbers_length _ _ Hn) as ->.
  rewrite length_map in Hes, Hks.
  exists t, ks, es. auto using strictly_ascending_spec.
Qed.

(** C1: both keyframe configurations pair strictly ascending timings with as
    many keyframes and one easing fewer.  The prerecorded camera keyframes
    have the timings 0, 6000, 7000, 8000, 14000, five snapshots with
    latitude, longitude, zoom, bearing and pitch, and four easings; the
    terrain layer keyframes have the timings 0, 2000, ..., 14000, eight
    r, g, b keyframes and seven easings. *)
Theorem keyframe_configurations_well_formed :
  (exists ks es,
     keyframe_lists (getPrerecordedCameraKeyframes tt)
     = Some (map VNum [0; 6000; 7000; 8000; 14000], ks, es)
     /\ ascending [0; 6000; 7000; 8000; 14000]
     /\ List.length ks = 5%nat
     /\ List.length es = 4%nat
     /\ Forall (fun k => number_record
                           ["latitude"; "longitude"; "zoom"; "bearing"; "pitch"] k
                         = true) ks)
  /\ (exists terrain ks es,
        getKeyframes tt = [("terrain", terrain)]
        /\ keyframe_lists terrain
           = Some (map VNum [0; 2000; 4000; 6000; 8000; 10000; 12000; 14000], ks, es)
        /\ ascending [0; 2000; 4000; 6000; 8000; 10000; 12000; 14000]
        /\ List.length ks = 8%nat
        /\ List.length es = 7%nat
        /\ Forall (fun k => number_record ["r"; "g"; "b"] k = true) ks)
  /\ Forall (fun i => well_formed_keyframes i = true)
       (getPrerecordedCameraKeyframes tt :: map snd (getKeyframes tt)).
Proof.
  split; [| split].
  - do 2 eexists. split; [reflexivity |].
    split; [apply strictly_ascending_spec; reflexivity |].
    repeat split. repeat constructor.
  - do 3 eexists. split; [reflexivity |]. split; [reflexivity |].
    split; [apply strictly_ascending_spec; reflexivity |].
    repeat split. repeat constructor.
  - repeat constructor.
Qed.

(** C5: the encoder settings are
    [{framerate: 30, webm: {quality: 0.8}, jpeg: {quality: 0.8},
      gif: {sampleInterval: 1000}}], with no other field at either level, and
    every render that shows the recording controls hands them this one
    constant. *)
Theorem encoder_settings_shape :
  (exists o webm jpeg gif,
     encoderSettings = VObj o
     /\ keys o = ["framerate"; "webm"; "jpeg"; "gif"]
     /\ lookup "framerate" o = Some (VNum 30)
     /\ lookup "webm" o = Some (VObj webm)
     /\ webm = [("quality", VNum 0.8)]
     /\ lookup "jpeg" o = Some (VObj jpeg)
     /\ jpeg = [("quality", VNum 0.8)]
     /\ lookup "gif" o = Some (VObj gif)
     /\ gif = [("sampleInterval", VNum 1000)])
  /\ forall (env : string -> option string) (K : Type) (getFrame : K -> value)
       (st : State),
       controls (App env getFrame st)
       = if ready st
         then Some {| p_busy := busy st;
                      p_encoderSettings := encoderSettings;
                      p_getCameraKeyframes := getCameraKeyframes st;
                      p_getKeyframes := getKeyframes |}
         else None.
Proof.
  split.
  - do 4 eexists. repeat split.
  - reflexivity.
Qed.

(** C7: whatever the environment holds for the token, unset included, loading
    the module does not raise, and both URL templates are the fixed prefix
    followed by the interpolated token, with no check on it: an unset token
    reads [undefined]. *)
Theorem module_init_total (env : string -> option string) :
  exists c,
    module_init env = Ok c
    /\ c_MAPBOX_TOKEN c = env_value (env "MapboxAccessToken")
    /\ c_TERRAIN_IMAGE c
       = "https://api.mapbox.com/v4/mapbox.terrain-rgb/{z}/{x}/{y}.png?access_token="
         ++ interpolate (env "MapboxAccessToken")
    /\ c_SURFACE_IMAGE c
       = "https://api.mapbox.com/v4/mapbox.satellite/{z}/{x}/{y}@2x.png?access_token="
         ++ interpolate (env "MapboxAccessToken")
    /\ (env "MapboxAccessToken" = None ->
        c_TERRAIN_IMAGE c
        = "https://api.mapbox.com/v4/mapbox.terrain-rgb/{z}/{x}/{y}.png?access_token=undefined"
        /\ c_SURFACE_IMAGE c
           = "https://api.mapbox.com/v4/mapbox.satellite/{z}/{x}/{y}@2x.png?access_token=undefined").
Proof.
  eexists. split; [reflexivity |]. cbn.
  repeat split; unfold TERRAIN_IMAGE, SURFACE_IMAGE, MAPBOX_TOKEN; rewrite H; reflexivity.
Qed.

Section AppFacts.

Variable process_env : string -> option string.
Variable Keyframes : Type.
Variable getFrame : Keyframes -> value.

(** C9: on a scene with terrain keyframes whose current frame is an
    object, [getLayers] returns exactly one layer, a [TerrainLayer], whose
    color is the frame's [[r, g, b]] and whose texture is [null] exactly
    when [rainbow] is set, and the satellite image URL otherwise. *)
Theorem getLayers_one_terrain_layer
  (st : State) (scene : Scene Keyframes) (kf : Keyframes) (frame : obj) :
  lookup "terrain" (keyframes scene) = Some kf ->
  getFrame kf = VObj frame ->
  exists props,
    getLayers process_env getFrame st scene = Ok [New "TerrainLayer" (VObj props)]
    /\ lookup "color" props
       = Some (VArr [get_own frame "r"; get_own frame "g"; get_own frame "b"])
    /\ lookup "texture" props
       = Some (if rainbow st then VNull else VStr (SURFACE_IMAGE process_env))
    /\ (lookup "texture" props = Some VNull <-> rainbow st = true).
Proof.
  intros Hkf Hframe. unfold getLayers. rewrite Hkf. cbn. rewrite Hframe. cbn.
  eexists. split; [reflexivity |]. cbn. repeat split.
  - destruct (rainbow st); [reflexivity | discriminate].
  - intros ->. reflexivity.
Qed.

(** C10: the generator given to the recording controls is the prerecorded
    one exactly when [cameraMode] is ['prerecorded'], and for any other
    value the fly-to generator over the current [viewStateA] and
    [viewStateB]. *)
Theorem getCameraKeyframes_by_mode (st : State) :
  (getCameraKeyframes st = getPrerecordedCameraKeyframes
   <-> cameraMode st = "prerecorded")
  /\ (getCameraKeyframes st = getFlyToCameraKeyframes st
      <-> cameraMode st <> "prerecorded")
  /\ getFlyToCameraKeyframes st tt
     = New "FlyToKeyframes"
         (VObj [ ("start", viewStateA st);
                 ("end", viewStateB st);
                 ("width", VNum 640);
                 ("height", VNum 480);
                 ("curve", VNum 1) ])
  /\ (forall p,
        controls (App process_env getFrame st) = Some p ->
        p_getCameraKeyframes p = getCameraKeyframes st).
Proof.
  assert (Hdiff : getFlyToCameraKeyframes st <> getPrerecordedCameraKeyframes).
  { intros H. apply (f_equal (fun f => f tt)) in H. discriminate H. }
  assert (Hctl : forall p,
             controls (App process_env getFrame st) = Some p ->
             p_getCameraKeyframes p = getCameraKeyframes st).
  { intros p. cbn. destruct (ready st); [| discriminate].
    intros H. inversion H. reflexivity. }
  split; [| split; [| split; [reflexivity | exact Hctl]]];
    unfold getCameraKeyframes;
    destruct (String.eqb_spec (cameraMode st) "prerecorded") as [E | E];
    split; intros H; try reflexivity; try assumption; try contradiction.
  symmetry in H. contradiction.
Qed.

End AppFacts.

(** The fly-to generator is configured by two poses and a viewport, not by
    keyframe lists. *)
Remark flyTo_has_no_keyframe_lists (st : State) :
  keyframe_lists (getFlyToCameraKeyframes st tt) = None.
Proof. reflexivity. Qed.

Import Fixtures.

Lemma getLayers_one_terrain_layer_witness :
  lookup "terrain" (keyframes orange_scene) = Some tt
  /\ orange_frame tt = VObj [("r", VNum 255); ("g", VNum 127.5); ("b", VNum 0)]
  /\ exists props,
       getLayers token_env orange_frame rainbow_state orange_scene
       = Ok [New "TerrainLayer" (VObj props)]
       /\ lookup "color" props
          = Some (VArr [ get_own [("r", VNum 255); ("g", VNum 127.5); ("b", VNum 0)] "r";
                         get_own [("r", VNum 255); ("g", VNum 127.5); ("b", VNum 0)] "g";
                         get_own [("r", VNum 255); ("g", VNum 127.5); ("b", VNum 0)] "b" ])
       /\ lookup "texture" props
          = Some (if rainbow rainbow_state then VNull else VStr (SURFACE_IMAGE token_env))
       /\ (lookup "texture" props = Some VNull <-> rainbow rainbow_state = true).
Proof.
  split; [reflexivity |]. split; [reflexivity |].
  apply (getLayers_one_terrain_layer token_env unit orange_frame
           rainbow_state orange_scene tt); reflexivity.
Defined.

End TerrainAppFacts.

(* ------------------------------------------------------------------------- *)
(** * The factory override: errors, edge cases and composition *)

Module OverrideEdgeFacts.
Import JS JSFacts LoadDataModal LoadDataModalFacts.

Lemma find_first_none (p : value -> result bool) (l : list value) :
  Forall (fun x => p x = Ok false) l -> find_first p l = Ok VUndefined.
Proof.
  induction 1 as [| x rest Hx _ IH]; cbn; [reflexivity |].
  rewrite Hx. exact IH.
Qed.

Lemma find_first_hit (p : value -> result bool) (before after : list value) (x : value) :
  Forall (fun y => p y = Ok false) before ->
  p x = Ok true ->
  find_first p (before ++ x :: after) = Ok x.
Proof.
  induction 1 as [| y rest Hy _ IH]; cbn; intros Hx.
  - now rewrite Hx.
  - rewrite Hy. cbn. auto.
Qed.

Lemma find_first_raises (p : value -> result bool) (before after : list value) (x : value) :
  Forall (fun y => p y = Ok false) before ->
  p x = Throw TypeError ->
  find_first p (before ++ x :: after) = Throw TypeError.
Proof.
  induction 1 as [| y rest Hy _ IH]; cbn; intros Hx.
  - now rewrite Hx.
  - rewrite Hy. cbn. auto.
Qed.

Lemma set_field_twice (k : string) (v v' : value) (o : obj) :
  set_field k v (set_field k v' o) = set_field k v o.
Proof.
  induction o as [| [k0 v0] rest IH]; cbn.
  - now rewrite String.eqb_refl.
  - destruct (String.eqb k k0) eqn:E; cbn; rewrite E; [reflexivity |].
    now rewrite IH.
Qed.



Section OverrideEdges.

Variables Instance FactoryRef : Type.
Variable LoadDataModalFactory : Factory Instance FactoryRef Component.
Variable LOADING_METHODS : obj.

Local Abbreviation Custom := (CustomLoadDataModalFactory LoadDataModalFactory LOADING_METHODS).
Local Abbreviation sample := (get_own (additionalMethods LOADING_METHODS) "sample").

(** X1: the custom factory raises a TypeError when the component of the
    original factory has no [defaultProps] ([undefined] or [null]), or has
    [defaultProps] without a [loadingMethods] property. *)
Theorem custom_raises_without_loadingMethods (args : list Instance) :
  (nullish (defaultProps (call LoadDataModalFactory args)) = true
   \/ exists o, defaultProps (call LoadDataModalFactory args) = VObj o
                /\ lookup "loadingMethods" o = None) ->
  call Custom args = Throw TypeError.
Proof.
  cbn [call CustomLoadDataModalFactory].
  unfold CustomLoadDataModalFactory_body.
  intros [H | (o & -> & Hnone)].
  - destruct (defaultProps (call LoadDataModalFactory args)); try discriminate H;
      reflexivity.
  - cbn. unfold get_own. rewrite Hnone. reflexivity.
Qed.

(** X2: when no default loading method has the id ['upload'] (an empty
    default list included), the factory still returns, and the produced list
    is [[undefined, sample]]. *)
Theorem custom_without_upload_lists_undefined
  (args : list Instance) (o : obj) (l : list value) :
  defaultProps (call LoadDataModalFactory args) = VObj o ->
  get_own o "loadingMethods" = VArr l ->
  Forall (fun lm => is_upload lm = Ok false) l ->
  exists w,
    call Custom args = Ok w
    /\ get (defaultProps (wrapped w)) "loadingMethods" = Ok (VArr [VUndefined; sample]).
Proof.
  intros Hdp Hlm Hall.
  cbn [call CustomLoadDataModalFactory].
  unfold CustomLoadDataModalFactory_body.
  rewrite Hdp. cbn. rewrite Hlm. cbn. rewrite (find_first_none _ _ Hall). cbn.
  eexists. split; [reflexivity |]. cbn.
  unfold get_own at 1. now rewrite lookup_set_field_same.
Qed.

(** X3: the search stops at the first default method whose id is
    ['upload']: the factory returns with that method first, whatever follows
    it in the default list, holes included. *)
Theorem custom_keeps_first_upload
  (args : list Instance) (o : obj) (before after : list value) (up : value) :
  defaultProps (call LoadDataModalFactory args) = VObj o ->
  get_own o "loadingMethods" = VArr (before ++ up :: after) ->
  Forall (fun lm => is_upload lm = Ok false) before ->
  is_upload up = Ok true ->
  exists w,
    call Custom args = Ok w
    /\ get (defaultProps (wrapped w)) "loadingMethods" = Ok (VArr [up; sample]).
Proof.
  intros Hdp Hlm Hall Hup.
  cbn [call CustomLoadDataModalFactory].
  unfold CustomLoadDataModalFactory_body.
  rewrite Hdp. cbn. rewrite Hlm. cbn.
  rewrite (find_first_hit _ _ _ _ Hall Hup). cbn.
  eexists. split; [reflexivity |]. cbn.
  unfold get_own at 1. now rewrite lookup_set_field_same.
Qed.

(** X4: a [null] or [undefined] entry of the default list that comes before
    any method with the id ['upload'] makes the factory raise a TypeError. *)
Theorem custom_raises_on_hole_before_upload
  (args : list Instance) (o : obj) (before after : list value) (hole : value) :
  defaultProps (call LoadDataModalFactory args) = VObj o ->
  get_own o "loadingMethods" = VArr (before ++ hole :: after) ->
  Forall (fun lm => is_upload lm = Ok false) before ->
  nullish hole = true ->
  call Custom args = Throw TypeError.
Proof.
  intros Hdp Hlm Hall Hhole.
  cbn [call CustomLoadDataModalFactory].
  unfold CustomLoadDataModalFactory_body.
  rewrite Hdp. cbn. rewrite Hlm. cbn.
  rewrite (find_first_raises is_upload before after hole Hall); [reflexivity |].
  destruct hole; try discriminate Hhole; reflexivity.
Qed.

(** X5: the override assigns [defaultProps] in place, so a factory may hand
    back a component this override already rewrote.  Overriding it again
    changes nothing when an upload method had been found, and raises a
    TypeError when none had been (the list then starts with [undefined]). *)
Theorem custom_override_twice
  (again : Factory Instance FactoryRef Component)
  (args args' : list Instance) (w : Connected) :
  call Custom args = Ok w ->
  call again args' = wrapped w ->
  exists u,
    get (defaultProps (wrapped w)) "loadingMethods" = Ok (VArr [u; sample])
    /\ ((is_upload u = Ok true
         /\ exists w',
              call (CustomLoadDataModalFactory again LOADING_METHODS) args' = Ok w'
              /\ defaultProps (wrapped w') = defaultProps (wrapped w))
        \/ (u = VUndefined
            /\ call (CustomLoadDataModalFactory again LOADING_METHODS) args'
               = Throw TypeError)).
Proof.
  intros H Hagain.
  destruct (custom_ok_inv _ _ _ _ args w H) as (o & l & u & Hdp & Hlm & Hfind & Hnew).
  assert (Hget : get_own (set_field "loadingMethods" (VArr [u; sample]) o) "loadingMethods"
                 = VArr [u; sample]).
  { unfold get_own. now rewrite lookup_set_field_same. }
  exists u. split.
  - rewrite Hnew. cbn [get]. now rewrite Hget.
  - cbn [call CustomLoadDataModalFactory].
    unfold CustomLoadDataModalFactory_body.
    rewrite Hagain, Hnew. cbn [get bind]. rewrite Hget.
    cbn [array_find find_first bind own_props].
    destruct (find_first_spec _ _ _ Hfind) as [[-> _] | (b & a & _ & Hup & _)].
    + right. split; reflexivity.
    + left. split; [exact Hup |]. rewrite Hup. cbn [bind].
      eexists. split; [reflexivity |].
      cbn [wrapped withState defaultProps]. now rewrite set_field_twice.
Qed.

End OverrideEdges.



Import Fixtures.

Lemma custom_raises_without_loadingMethods_witness :
  (nullish (defaultProps (call bare_factory [tt])) = true
   \/ exists o, defaultProps (call bare_factory [tt]) = VObj o
                /\ lookup "loadingMethods" o = None)
  /\ call (CustomLoadDataModalFactory bare_factory stock_LOADING_METHODS) [tt]
     = Throw TypeError.
Proof.
  assert (H : nullish (defaultProps (call bare_factory [tt])) = true
              \/ exists o, defaultProps (call bare_factory [tt]) = VObj o
                           /\ lookup "loadingMethods" o = None)
    by (left; reflexivity).
  split; [exact H |].
  exact (custom_raises_without_loadingMethods
           unit string bare_factory stock_LOADING_METHODS [tt] H).
Defined.

Lemma custom_without_upload_lists_undefined_witness :
  Forall (fun lm => is_upload lm = Ok false) [storage_method]
  /\ exists w,
       call (CustomLoadDataModalFactory storage_only_factory stock_LOADING_METHODS) [tt]
       = Ok w
       /\ get (defaultProps (wrapped w)) "loadingMethods"
          = Ok (VArr [VUndefined;
                      get_own (additionalMethods stock_LOADING_METHODS) "sample"]).
Proof.
  assert (H : Forall (fun lm => is_upload lm = Ok false) [storage_method])
    by (repeat constructor).
  split; [exact H |].
  exact (custom_without_upload_lists_undefined
           unit string storage_only_factory stock_LOADING_METHODS [tt]
           [("loadingMethods", VArr [storage_method])] [storage_method]
           eq_refl eq_refl H).
Defined.

Lemma custom_keeps_first_upload_witness :
  Forall (fun lm => is_upload lm = Ok false) [storage_method]
  /\ is_upload upload_method = Ok true
  /\ exists w,
       call (CustomLoadDataModalFactory hole_after_factory stock_LOADING_METHODS) [tt]
       = Ok w
       /\ get (defaultProps (wrapped w)) "loadingMethods"
          = Ok (VArr [upload_method;
                      get_own (additionalMethods stock_LOADING_METHODS) "sample"]).
Proof.
  assert (H : Forall (fun lm => is_upload lm = Ok false) [storage_method])
    by (repeat constructor).
  split; [exact H |]. split; [reflexivity |].
  exact (custom_keeps_first_upload
           unit string hole_after_factory stock_LOADING_METHODS [tt]
           [("loadingMethods", VArr [storage_method; upload_method; VUndefined])]
           [storage_method] [VUndefined] upload_method
           eq_refl eq_refl H eq_refl).
Defined.

Lemma custom_raises_on_hole_before_upload_witness :
  Forall (fun lm => is_upload lm = Ok false) [storage_method]
  /\ nullish VNull = true
  /\ call (CustomLoadDataModalFactory hole_before_factory stock_LOADING_METHODS) [tt]
     = Throw TypeError.
Proof.
  assert (H : Forall (fun lm => is_upload lm = Ok false) [storage_method])
    by (repeat constructor).
  split; [exact H |]. split; [reflexivity |].
  exact (custom_raises_on_hole_before_upload
           unit string hole_before_factory stock_LOADING_METHODS [tt]
           [("loadingMethods", VArr [storage_method; VNull; upload_method])]
           [storage_method] [upload_method] VNull
           eq_refl eq_refl H eq_refl).
Defined.

Lemma custom_override_twice_witness :
  exists w,
    call (CustomLoadDataModalFactory stock_factory stock_LOADING_METHODS) [tt] = Ok w
    /\ call (returning (wrapped w)) [tt] = wrapped w
    /\ exists u,
         get (defaultProps (wrapped w)) "loadingMethods"
         = Ok (VArr [u; get_own (additionalMethods stock_LOADING_METHODS) "sample"])
         /\ ((is_upload u = Ok true
              /\ exists w',
                   call (CustomLoadDataModalFactory (returning (wrapped w))
                           stock_LOADING_METHODS) [tt] = Ok w'
                   /\ defaultProps (wrapped w') = defaultProps (wrapped w))
             \/ (u = VUndefined
                 /\ call (CustomLoadDataModalFactory (returning (wrapped w))
                            stock_LOADING_METHODS) [tt]
                    = Throw TypeError)).
Proof.
  eexists. split; [reflexivity |]. split; [reflexivity |].
  apply (custom_override_twice
           unit string stock_factory stock_LOADING_METHODS
           (returning _) [tt] [tt] _ eq_refl eq_refl).
Defined.



End OverrideEdgeFacts.

(* ------------------------------------------------------------------------- *)
(** * The terrain demo: errors, invariants and how the handlers compose *)

Module AppBehaviourFacts.
Import JS JSFacts TerrainApp.
Local Open Scope float_scope.

Lemma duration_run (st : State) (es : list event) :
  duration (run st es) = duration st.
Proof.
  revert st. induction es as [| e rest IH]; intros st; [reflexivity |].
  change (run st (e :: rest)) with (run (update st e) rest).
  rewrite IH. destruct e; reflexivity.
Qed.


Section Behaviour.

Variable process_env : string -> option string.
Variable Keyframes : Type.
Variable getFrame : Keyframes -> value.

(** X8: [getLayers] raises a TypeError exactly when the scene has no terrain
    keyframes or their current frame is [null] or [undefined]; a frame that
    merely lacks a channel does not make it raise. *)
Theorem getLayers_raises_iff (st : State) (scene : Scene Keyframes) :
  getLayers process_env getFrame st scene = Throw TypeError
  <-> (lookup "terrain" (keyframes scene) = None
       \/ exists kf, lookup "terrain" (keyframes scene) = Some kf
                     /\ nullish (getFrame kf) = true).
Proof.
  unfold getLayers.
  destruct (lookup "terrain" (keyframes scene)) as [kf |]; cbn; [| tauto].
  destruct (getFrame kf) eqn:E; cbn; split; intros H;
    try discriminate H; try reflexivity;
    try (right; exists kf; rewrite E; split; reflexivity);
    destruct H as [H | (kf' & Hkf & Hn)]; try discriminate H;
    inversion Hkf; subst; rewrite E in Hn; discriminate Hn.
Qed.

(** X9: no event changes the scene length: after any sequence of events
    [getDeckScene] still asks for 15000 ms and for the keyframes of
    [getKeyframes], and every timing of the two keyframe configurations lies
    within that length. *)
Theorem scene_length_invariant (es : list event) (loop : value) :
  lengthMs (getDeckScene (run initial_state es) loop) = VNum 15000
  /\ initialKeyframes (getDeckScene (run initial_state es) loop) = getKeyframes tt
  /\ forall i ts ks eas,
       In i (getPrerecordedCameraKeyframes tt :: map snd (getKeyframes tt)) ->
       keyframe_lists i = Some (ts, ks, eas) ->
       Forall (fun t => exists x, t = VNum x /\ PrimFloat.leb x 15000 = true) ts.
Proof.
  split; [| split].
  - cbn. now rewrite duration_run.
  - reflexivity.
  - intros i ts ks eas [<- | [<- | []]] H; cbn in H; inversion H; subst;
      repeat constructor; eexists; split; reflexivity.
Qed.


(** X11: the two fly-to buttons are disabled exactly when the prerecorded
    generator is the one in use, and enabled exactly when the fly-to
    generator is. *)
Theorem flyTo_buttons_follow_generator (st : State) :
  (flyTo_buttons_disabled (App process_env getFrame st) = true
   <-> getCameraKeyframes st = getPrerecordedCameraKeyframes)
  /\ (flyTo_buttons_disabled (App process_env getFrame st) = false
      <-> getCameraKeyframes st = getFlyToCameraKeyframes st).
Proof.
  assert (Hdiff : getFlyToCameraKeyframes st <> getPrerecordedCameraKeyframes).
  { intros H. apply (f_equal (fun f => f tt)) in H. discriminate H. }
  cbn. unfold getCameraKeyframes.
  destruct (String.eqb (cameraMode st) "prerecorded");
    repeat split; intros H; try reflexivity; try discriminate H.
  - symmetry in H. contradiction.
  - contradiction.
Qed.

(** X12: toggling the rainbow changes the texture of the layer and nothing
    else: the layer returned after a toggle has another texture and the same
    value under every other key, and a second toggle restores the state. *)
Theorem toggle_rainbow_changes_texture_only
  (st : State) (scene : Scene Keyframes) (props : obj) :
  getLayers process_env getFrame st scene = Ok [New "TerrainLayer" (VObj props)] ->
  exists props',
    getLayers process_env getFrame (update st ToggleRainbow) scene
    = Ok [New "TerrainLayer" (VObj props')]
    /\ (forall k, k <> "texture" -> lookup k props' = lookup k props)
    /\ lookup "texture" props' <> lookup "texture" props
    /\ update (update st ToggleRainbow) ToggleRainbow = st.
Proof.
  unfold getLayers.
  destruct (lookup "terrain" (keyframes scene)) as [kf |]; cbn; [| discriminate].
  assert (Hback : update (update st ToggleRainbow) ToggleRainbow = st).
  { destruct st. cbn. now rewrite negb_involutive. }
  destruct (getFrame kf); cbn; try discriminate;
    intros H; inversion H; subst; clear H;
    (eexists; split; [reflexivity |]; split; [| split; [| exact Hback]]);
    try (intros k Hk; cbn;
         repeat match goal with
                | |- context [String.eqb k ?s] => destruct (String.eqb_spec k s)
                end;
         try reflexivity; contradiction);
    cbn; destruct (rainbow st); cbn; discriminate.
Qed.


Lemma ready_run (st : State) (es : list event) :
  (forall b, ~ In (SetReady b) es) -> ready (run st es) = ready st.
Proof.
  revert st. induction es as [| e rest IH]; intros st Hno; [reflexivity |].
  change (run st (e :: rest)) with (run (update st e) rest).
  rewrite IH by (intros b Hb; apply (Hno b); right; exact Hb).
  destruct e; try reflexivity.
  exfalso. apply (Hno b). left. reflexivity.
Qed.

(** X14: the recording controls stay hidden until the adapter reports that
    it is ready: whatever the user does (move the camera, toggle the rainbow,
    pick a camera mode, press the fly-to buttons), a run without [setReady]
    renders no [BasicControls]; once [setReady(true)] has run they are
    rendered. *)
Theorem controls_hidden_until_ready (es : list event) :
  (forall b, ~ In (SetReady b) es) ->
  controls (App process_env getFrame (run initial_state es)) = None
  /\ controls (App process_env getFrame (update (run initial_state es) (SetReady true)))
     <> None.
Proof.
  intros Hno. cbn [controls App].
  rewrite (ready_run initial_state es Hno). cbn. split; [reflexivity | discriminate].
Qed.

End Behaviour.

Import Fixtures.

Lemma controls_hidden_until_ready_witness :
  (forall b, ~ In (SetReady b)
                [ViewStateChange VNull; ToggleRainbow; SelectCameraMode "fly-to";
                 SetFlyToStart; SetBusy true])
  /\ controls (App empty_env orange_frame
                 (run initial_state
                    [ViewStateChange VNull; ToggleRainbow; SelectCameraMode "fly-to";
                     SetFlyToStart; SetBusy true])) = None
  /\ controls (App empty_env orange_frame
                 (update (run initial_state
                            [ViewStateChange VNull; ToggleRainbow;
                             SelectCameraMode "fly-to"; SetFlyToStart; SetBusy true])
                    (SetReady true)))
     <> None.
Proof.
  assert (H : forall b, ~ In (SetReady b)
                          [ViewStateChange VNull; ToggleRainbow;
                           SelectCameraMode "fly-to"; SetFlyToStart; SetBusy true]).
  { intros b Hin. cbn in Hin. intuition discriminate. }
  split; [exact H |].
  exact (controls_hidden_until_ready empty_env unit orange_frame _ H).
Defined.

Lemma toggle_rainbow_changes_texture_only_witness :
  exists props,
    getLayers token_env orange_frame initial_state orange_scene
    = Ok [New "TerrainLayer" (VObj props)]
    /\ exists props',
         getLayers token_env orange_frame (update initial_state ToggleRainbow) orange_scene
         = Ok [New "TerrainLayer" (VObj props')]
         /\ (forall k, k <> "texture" -> lookup k props' = lookup k props)
         /\ lookup "texture" props' <> lookup "texture" props
         /\ update (update initial_state ToggleRainbow) ToggleRainbow = initial_state.
Proof.
  eexists. split; [reflexivity |].
  apply (toggle_rainbow_changes_texture_only token_env unit orange_frame
           initial_state orange_scene).
  reflexivity.
Defined.


End AppBehaviourFacts.
